(** * fastspring-py: the FastSpring API client of [fastspring/api.py]

    A shallow embedding of the client class [FastSpringAPI] and of its
    exception [FastSpringException], followed by the properties of its six
    public operations and of the internal helper [_request].

    What the module imports and does not define is a parameter of the
    development: [xmltodict.parse], [xmltodict.unparse], [urlparse.urljoin]
    and the remote server reached through [requests.request].  For the one
    property that depends on what [urljoin] answers, Python's own function
    is transcribed in [Urlparse].  The two [logger.debug] calls of
    [_request] have no effect on any value and are left out. *)

From Stdlib Require Import ZArith List String Ascii Bool Lia DecimalString.
From Stdlib Require DecimalZ DecimalPos.
Import ListNotations.
Open Scope string_scope.
Open Scope Z_scope.

Set Implicit Arguments.

(** ** Python values that reach the client *)

(** The [simulate] argument of [renew_subscription]: [None] (the default),
    a bool, an int or a str. *)
Inductive scalar : Type :=
| PyNone
| PyBool (b : bool)
| PyInt (n : Z)
| PyStr (s : string).

(** Truth value of a str: only the empty one is false. *)
Definition nonempty (s : string) : bool :=
  match s with
  | EmptyString => false
  | String _ _ => true
  end.

(** Python's truth value, as [if simulate:] tests it. *)
Definition truthy (v : scalar) : bool :=
  match v with
  | PyNone => false
  | PyBool b => b
  | PyInt n => negb (n =? 0)
  | PyStr s => nonempty s
  end.

(** What ['%s' % v] interpolates, that is [str(v)]. *)
Definition str (v : scalar) : string :=
  match v with
  | PyNone => "None"
  | PyBool true => "True"
  | PyBool false => "False"
  | PyInt n => NilZero.string_of_int (Z.to_int n)
  | PyStr s => s
  end.

(** ** Exceptions and the monad of a call *)

(** [FastSpringException] with its four fields, and the exceptions that
    escape from the two xmltodict functions. *)
Inductive exn : Type :=
| FastSpringException (detail : string) (status : Z) (message reason : string)
| ParseError
| UnparseError.

Inductive outcome (A : Type) : Type :=
| Return (a : A)
| Raise (e : exn).

Arguments Return {A} a.
Arguments Raise {A} e.

(** ** Requests and responses *)

(** The [data] argument of [_request], which is also what it hands to
    [requests.request] as the body: [None], a str, or a dict whose values
    are caller-supplied objects of type [P]. *)
Inductive pydata (P : Type) : Type :=
| DNone
| DStr (s : string)
| DDict (items : list (string * P)).

Arguments DNone {P}.
Arguments DStr {P} s.
Arguments DDict {P} items.

(** Truth value of [data]: [None], [''] and [{}] are false. *)
Definition data_truthy {P : Type} (d : pydata P) : bool :=
  match d with
  | DNone => false
  | DStr s => nonempty s
  | DDict [] => false
  | DDict (_ :: _) => true
  end.

(** The keyword arguments of the one [requests.request] call. *)
Record Request (P : Type) : Type := mkRequest {
  rq_method : string;
  rq_url : string;
  rq_headers : list (string * string);
  rq_auth : string * string;
  rq_data : pydata P
}.

(** The three attributes of the response that [_request] reads. *)
Record Response : Type := mkResponse {
  status_code : Z;
  content : string;
  reason : string
}.

(** The configuration held by a client instance. *)
Record FastSpringAPI : Type := mkFastSpringAPI {
  username : string;
  password : string;
  company : string;
  api_base_url : string
}.

(** The constructor, with the default of [api_base_url]. *)
Definition __init__ (username password company : string)
    (api_base_url : option string) : FastSpringAPI :=
  mkFastSpringAPI username password company
    (match api_base_url with
     | Some u => u
     | None => "https://api.fastspring.com"
     end).

(** ** A call: the requests sent so far, and a value or an exception *)

(** A computation over a state [S] that returns or raises.  The state
    survives a [Raise]: a request sent before the exception stays sent. *)
Definition M (S A : Type) : Type := S -> outcome A * S.

Definition ret {S A : Type} (a : A) : M S A :=
  fun s => (Return a, s).

Definition raise {S A : Type} (e : exn) : M S A :=
  fun s => (Raise e, s).

Definition bind {S A B : Type} (c : M S A) (k : A -> M S B) : M S B :=
  fun s =>
    match c s with
    | (Return a, s') => k a s'
    | (Raise e, s') => (Raise e, s')
    end.

Declare Scope call_scope.
Delimit Scope call_scope with call.

Notation "x <- c ;; k" := (bind c (fun x => k))
  (at level 61, c at next level, right associativity) : call_scope.
Notation "' pat <- c ;; k" := (bind c (fun x => match x with pat => k end))
  (at level 61, pat pattern, c at next level, right associativity) : call_scope.

(** The value or exception of a call started in state [s], and the state
    it leaves. *)
Definition result_of {S A : Type} (c : M S A) (s : S) : outcome A := fst (c s).
Definition trace_of {S A : Type} (c : M S A) (s : S) : S := snd (c s).

(** The 4-tuple [(content, status_code, message, reason)] of [_request]. *)
Definition reply : Type := (string * Z * string * string)%type.

Definition reply_message (r : reply) : string :=
  match r with
  | (_, _, message, _) => message
  end.

(** ** Python 2.7's [urlparse.urljoin]

    [urlparse] is Python's standard library (the client is Python 2 code).
    Its [urljoin] is transcribed from [Lib/urlparse.py] as far as a reference
    whose path starts with a slash needs it, which is all the client ever
    asks of it.  The memo table of [urlsplit] is left out, and the
    resolution of a relative path ends in [RelativeReference].  Python 3's
    [urllib.parse] answers alike for these references, except that it
    removes dot segments from the path, validates a bracketed host, and has
    no port-number test in [urlsplit]. *)
Module Urlparse.

(** The scheme tables of the module. *)
Definition uses_relative : list string :=
  ["ftp"; "http"; "gopher"; "nntp"; "imap"; "wais"; "file"; "https";
   "shttp"; "mms"; "prospero"; "rtsp"; "rtspu"; ""; "sftp"; "svn";
   "svn+ssh"].

Definition uses_netloc : list string :=
  ["ftp"; "http"; "gopher"; "nntp"; "telnet"; "imap"; "wais"; "file";
   "mms"; "https"; "shttp"; "snews"; "prospero"; "rtsp"; "rtspu"; "rsync";
   ""; "svn"; "svn+ssh"; "sftp"; "nfs"; "git"; "git+ssh"].

Definition uses_params : list string :=
  ["ftp"; "hdl"; "prospero"; "http"; "imap"; "https"; "shttp"; "rtsp";
   "rtspu"; "sip"; "sips"; "mms"; ""; "sftp"; "tel"].

(** Characters valid in scheme names. *)
Definition scheme_chars : string :=
  "abcdefghijklmnopqrstuvwxyzABCDEFGHIJKLMNOPQRSTUVWXYZ0123456789+-.".

(** [c in s] *)
Fixpoint contains (c : ascii) (s : string) : bool :=
  match s with
  | EmptyString => false
  | String a t => Ascii.eqb a c || contains c t
  end.

(** Every character of [s] passes [f]. *)
Fixpoint all_chars (f : ascii -> bool) (s : string) : bool :=
  match s with
  | EmptyString => true
  | String a t => f a && all_chars f t
  end.

(** [s in l] *)
Definition member (s : string) (l : list string) : bool :=
  existsb (String.eqb s) l.

(** [str.lower], on ASCII. *)
Definition lower_char (a : ascii) : ascii :=
  let n := nat_of_ascii a in
  if (65 <=? n)%nat && (n <=? 90)%nat then ascii_of_nat (n + 32) else a.

Fixpoint lower (s : string) : string :=
  match s with
  | EmptyString => EmptyString
  | String a t => String (lower_char a) (lower t)
  end.

(** The text before and after the first [c]: [(s[:i], s[i+1:])] with
    [i = s.find(c)], which is also [s.split(c, 1)]; [None] without a [c]. *)
Fixpoint partition (c : ascii) (s : string) : option (string * string) :=
  match s with
  | EmptyString => None
  | String a t =>
      if Ascii.eqb a c then Some (EmptyString, t)
      else match partition c t with
           | Some (before, after) => Some (String a before, after)
           | None => None
           end
  end.

(** The two halves of [url, rest = url.split(c, 1)] guarded by
    [if c in url], the whole and the empty string without a [c]. *)
Definition before (c : ascii) (s : string) : string :=
  match partition c s with
  | Some (b, _) => b
  | None => s
  end.

Definition after (c : ascii) (s : string) : string :=
  match partition c s with
  | Some (_, a) => a
  | None => EmptyString
  end.

(** [s[:len(p)] == p] *)
Fixpoint startswith (p s : string) : bool :=
  match p, s with
  | EmptyString, _ => true
  | String a p', String b s' => Ascii.eqb a b && startswith p' s'
  | String _ _, EmptyString => false
  end.

(** [s[2:]] *)
Definition drop2 (s : string) : string :=
  match s with
  | String _ (String _ t) => t
  | _ => EmptyString
  end.

(** [_splitnetloc(url, 2)] on [url[2:]]: the domain runs to the first of
    [/], [?] and [#]; the rest starts there. *)
Fixpoint _splitnetloc (s : string) : string * string :=
  match s with
  | EmptyString => (EmptyString, EmptyString)
  | String a t =>
      if contains a "/?#" then (EmptyString, s)
      else (String a (fst (_splitnetloc t)), snd (_splitnetloc t))
  end.

Record SplitResult : Type := mkSplit {
  scheme : string; netloc : string; path : string;
  query : string; fragment : string }.

(** [urlsplit] from [if url[:2] == '//'] on, once the scheme is settled.
    [None] is [ValueError("Invalid IPv6 URL")]. *)
Definition split_rest (scheme url : string) : option SplitResult :=
  let netloc := if startswith "//" url then fst (_splitnetloc (drop2 url))
                else EmptyString in
  let url := if startswith "//" url then snd (_splitnetloc (drop2 url))
             else url in
  if (contains "[" netloc && negb (contains "]" netloc))
     || (contains "]" netloc && negb (contains "[" netloc))
  then None
  else
    let fragment := after "#" url in
    let url := before "#" url in
    let query := after "?" url in
    let url := before "?" url in
    Some (mkSplit scheme netloc url query fragment).

(** [urlsplit(url, scheme)] with fragments allowed.  A scheme is found
    when the text before the first colon is non-empty, made of scheme
    characters and not followed by a port number; [http] is recognised
    without that last test. *)
Definition urlsplit (url scheme : string) : option SplitResult :=
  match partition ":" url with
  | Some (head, rest) =>
      if (head =? "")%string then split_rest scheme url
      else if (head =? "http")%string then split_rest (lower head) rest
      else if all_chars (fun c => contains c scheme_chars) head
                && ((rest =? "")%string
                    || negb (all_chars (fun c => contains c "0123456789")
                               rest))
      then split_rest (lower head) rest
      else split_rest scheme url
  | None => split_rest scheme url
  end.

(** [(s[:k+1], s[k+1:])] with [k = s.rfind('/')]; [None] without a
    slash. *)
Fixpoint last_segment (s : string) : option (string * string) :=
  match s with
  | EmptyString => None
  | String a t =>
      match last_segment t with
      | Some (dir, name) => Some (String a dir, name)
      | None => if Ascii.eqb a "/" then Some ("/", t) else None
      end
  end.

(** [_splitparams(url)]: splits at the first [;] of the last path
    segment.  [urlparse] calls it only when [url] holds a [;]. *)
Definition _splitparams (url : string) : string * string :=
  let (dir, name) :=
    match last_segment url with
    | Some (dir, name) => (dir, name)
    | None => (EmptyString, url)
    end in
  match partition ";" name with
  | Some (path, params) => (dir ++ path, params)
  | None => (url, EmptyString)
  end.

Record ParseResult : Type := mkParse {
  p_scheme : string; p_netloc : string; p_path : string;
  p_params : string; p_query : string; p_fragment : string }.

(** [urlparse(url, scheme)] *)
Definition urlparse (url scheme : string) : option ParseResult :=
  match urlsplit url scheme with
  | None => None
  | Some r =>
      let split :=
        if member (Urlparse.scheme r) uses_params && contains ";" (path r)
        then _splitparams (path r)
        else (path r, EmptyString) in
      Some (mkParse (Urlparse.scheme r) (netloc r) (fst split) (snd split)
              (query r) (fragment r))
  end.

(** [urlunsplit((scheme, netloc, url, query, fragment))] *)
Definition urlunsplit (scheme netloc url query fragment : string) : string :=
  let url :=
    if negb (netloc =? "")%string
       || (negb (scheme =? "")%string && member scheme uses_netloc
           && negb (startswith "//" url))
    then "//" ++ netloc ++
         (if negb (url =? "")%string && negb (startswith "/" url)
          then "/" ++ url else url)
    else url in
  let url :=
    if negb (scheme =? "")%string then scheme ++ ":" ++ url else url in
  let url :=
    if negb (query =? "")%string then url ++ "?" ++ query else url in
  if negb (fragment =? "")%string then url ++ "#" ++ fragment else url.

(** [urlunparse((scheme, netloc, url, params, query, fragment))] *)
Definition urlunparse (scheme netloc url params query fragment : string)
    : string :=
  urlunsplit scheme netloc
    (if negb (params =? "")%string then url ++ ";" ++ params else url)
    query fragment.

(** What [urljoin] comes to: a URL, the [ValueError] of [urlsplit], or
    the resolution of a relative path, which is not transcribed. *)
Inductive joined : Type :=
| Url (url : string)
| ValueError
| RelativeReference.

(** [urljoin(base, url)] up to and including
    [if path[:1] == '/': return urlunparse(...)]. *)
Definition urljoin (base url : string) : joined :=
  if (base =? "")%string then Url url
  else if (url =? "")%string then Url base
  else
    match urlparse base "" with
    | None => ValueError
    | Some b =>
        match urlparse url (p_scheme b) with
        | None => ValueError
        | Some u =>
            if negb (p_scheme u =? p_scheme b)%string
               || negb (member (p_scheme u) uses_relative)
            then Url url
            else
              let netloc :=
                if member (p_scheme u) uses_netloc then p_netloc b
                else p_netloc u in
              if member (p_scheme u) uses_netloc
                 && negb (p_netloc u =? "")%string
              then Url (urlunparse (p_scheme u) (p_netloc u) (p_path u)
                          (p_params u) (p_query u) (p_fragment u))
              else if startswith "/" (p_path u)
              then Url (urlunparse (p_scheme u) netloc (p_path u)
                          (p_params u) (p_query u) (p_fragment u))
              else RelativeReference
        end
    end.

(** *** Vocabulary for base URLs and paths *)





End Urlparse.

(** ** A canned environment

    Stand-ins for the imported functions and for the remote server, used
    only to run the client on concrete inputs.  Parsed documents and
    payload values are plain strings here. *)
Module Fixture.

(** Accepts a document that opens with a tag. *)
Definition parse (doc : string) : option string :=
  match doc with
  | String "<"%char _ => Some doc
  | _ => None
  end.

(** Serializes a dict with exactly one root. *)
Definition unparse (d : pydata string) : option string :=
  match d with
  | DDict [(k, v)] => Some ("<" ++ k ++ ">" ++ v ++ "</" ++ k ++ ">")
  | _ => None
  end.

(** Python's [urljoin] where it returns a URL, which is wherever the
    canned client calls it; the reference itself otherwise. *)
Definition urljoin (base url : string) : string :=
  match Urlparse.urljoin base url with
  | Urlparse.Url joined => joined
  | _ => url
  end.

(** Answers every request with the same response. *)
Definition always (r : Response) (sent : list (Request string))
    (rq : Request string) : Response := r.

(** Answers by HTTP method: a read finds the resource, a write is refused. *)
Definition by_method (sent : list (Request string))
    (rq : Request string) : Response :=
  if (rq_method rq =? "GET")%string
  then mkResponse 200 "<order><reference>ACME1</reference></order>" "OK"
  else mkResponse 403 "" "Forbidden".

(** Status 200 with the given body, and two answers without a body. *)
Definition ok_with (doc : string) := always (mkResponse 200 doc "OK").
Definition ok_empty := ok_with "".
Definition server_error :=
  always (mkResponse 500 "" "Internal Server Error").

(** Status 404 with the given body. *)
Definition not_found_with (doc : string) :=
  always (mkResponse 404 doc "Not Found").

(** Serves the first request it sees and throttles every later one. *)
Definition first_only (sent : list (Request string))
    (rq : Request string) : Response :=
  match sent with
  | [] => mkResponse 200 "<order/>" "OK"
  | _ :: _ => mkResponse 429 "" "Too Many Requests"
  end.

Definition api : FastSpringAPI := __init__ "user" "secret" "acme" None.

End Fixture.

(** ** The client *)

Section Client.

(** What [xmltodict.parse] builds, and what callers pass as
    [subscription_data]. *)
Variable Mapping : Type.
Variable Payload : Type.

(** [xmltodict.parse] and [xmltodict.unparse]; [None] stands for an
    exception raised inside the library. *)
Variable xmltodict_parse : string -> option Mapping.
Variable xmltodict_unparse : pydata Payload -> option string.

(** [urlparse.urljoin]. *)
Variable urljoin : string -> string -> string.

(** The remote end of [requests.request]: its response to a request, given
    the requests it has received before.  Every request gets a response: a
    transport failure, where [requests] itself raises, is not modelled. *)
Variable server : list (Request Payload) -> Request Payload -> Response.

Definition Call (A : Type) : Type := M (list (Request Payload)) A.

Definition parse (doc : string) : Call Mapping :=
  match xmltodict_parse doc with
  | Some m => ret m
  | None => raise ParseError
  end.

Definition unparse (d : pydata Payload) : Call string :=
  match xmltodict_unparse d with
  | Some xml => ret xml
  | None => raise UnparseError
  end.

Definition requests_request (rq : Request Payload) : Call Response :=
  fun sent => (Return (server sent rq), (sent ++ [rq])%list).

(** ['/company/%s/%s' % (self.company, path)] *)
Definition request_path (self : FastSpringAPI) (path : string) : string :=
  "/company/" ++ company self ++ "/" ++ path.

(** The arguments [_request] gives to [requests.request]. *)
Definition prepare (self : FastSpringAPI) (method path : string)
    (body : pydata Payload) : Request Payload :=
  {| rq_method := method;
     rq_url := urljoin (api_base_url self) (request_path self path);
     rq_headers := [("Content-type", "application/xml")];
     rq_auth := (username self, password self);
     rq_data := body |}.

Definition _request (self : FastSpringAPI) (method path : string)
    (data : pydata Payload) (skip_unparse : bool) : Call reply :=
  (body <- (if data_truthy data && negb skip_unparse
            then (xml <- unparse data ;; ret (DStr xml))
            else ret data) ;;
   response <- requests_request (prepare self method path body) ;;
   let status_code := status_code response in
   let content := content response in
   let message := "" in
   let reason := reason response in
   ret (content, status_code, message, reason))%call.

Definition get_order (self : FastSpringAPI) (reference : string)
    : Call Mapping :=
  ('(content, status, message, reason) <-
     _request self "GET" ("order/" ++ reference) DNone false ;;
   if nonempty content
   then parse content
   else raise (FastSpringException "Could not get order information"
                 status message reason))%call.

Definition generate_coupon (self : FastSpringAPI) (prefix : string)
    : Call Mapping :=
  ('(content, status, message, reason) <-
     _request self "POST" ("coupon/" ++ prefix ++ "/generate") DNone false ;;
   if nonempty content
   then parse content
   else raise (FastSpringException "Could not generate coupon"
                 status message reason))%call.

Definition get_subscription (self : FastSpringAPI) (reference : string)
    : Call Mapping :=
  ('(content, status, message, reason) <-
     _request self "GET" ("subscription/" ++ reference) DNone false ;;
   parse content)%call.

Definition update_subscription (self : FastSpringAPI) (reference : string)
    (subscription_data : Payload) : Call Mapping :=
  ('(content, status, message, reason) <-
     _request self "PUT" ("subscription/" ++ reference)
       (DDict [("subscription", subscription_data)]) false ;;
   if negb (status =? 200)
   then raise (FastSpringException "Could not update subscription"
                 status message reason)
   else parse content)%call.

(** Falling off the end of the method returns [None]. *)
Definition cancel_subscription (self : FastSpringAPI) (reference : string)
    : Call (option Mapping) :=
  ('(content, status, message, reason) <-
     _request self "DELETE" ("subscription/" ++ reference) DNone false ;;
   if nonempty content
   then (m <- parse content ;; ret (Some m))
   else if negb (status =? 200)
   then raise (FastSpringException "Could not cancel subscription"
                 status message reason)
   else ret None)%call.

Definition renew_subscription (self : FastSpringAPI) (reference : string)
    (simulate : scalar) : Call (bool * Z * string * string) :=
  (let data := if truthy simulate
               then DStr ("simulate=" ++ str simulate)
               else DNone in
   '(content, status, message, reason) <-
     _request self "POST" ("subscription/" ++ reference ++ "/renew")
       data true ;;
   if status =? 200
   then ret (true, status, message, reason)
   else ret (false, status, message, reason))%call.

(** *** The six operations as one type *)

Inductive operation : Type :=
| GetOrder (reference : string)
| GenerateCoupon (prefix : string)
| GetSubscription (reference : string)
| UpdateSubscription (reference : string) (subscription_data : Payload)
| CancelSubscription (reference : string)
| RenewSubscription (reference : string) (simulate : scalar).

(** What a public method can return: a parsed mapping, the tuple of
    [renew_subscription], or [None]. *)
Inductive value : Type :=
| Parsed (m : Mapping)
| Renewed (t : bool * Z * string * string)
| Nothing.

Definition perform (self : FastSpringAPI) (op : operation) : Call value :=
  (match op with
   | GetOrder reference =>
       m <- get_order self reference ;; ret (Parsed m)
   | GenerateCoupon prefix =>
       m <- generate_coupon self prefix ;; ret (Parsed m)
   | GetSubscription reference =>
       m <- get_subscription self reference ;; ret (Parsed m)
   | UpdateSubscription reference subscription_data =>
       m <- update_subscription self reference subscription_data ;;
       ret (Parsed m)
   | CancelSubscription reference =>
       r <- cancel_subscription self reference ;;
       ret (match r with Some m => Parsed m | None => Nothing end)
   | RenewSubscription reference simulate =>
       t <- renew_subscription self reference simulate ;; ret (Renewed t)
   end)%call.

(** The path each method passes to [_request]. *)
Definition resource (op : operation) : string :=
  match op with
  | GetOrder reference => "order/" ++ reference
  | GenerateCoupon prefix => "coupon/" ++ prefix ++ "/generate"
  | GetSubscription reference => "subscription/" ++ reference
  | UpdateSubscription reference _ => "subscription/" ++ reference
  | CancelSubscription reference => "subscription/" ++ reference
  | RenewSubscription reference _ => "subscription/" ++ reference ++ "/renew"
  end.


(** The HTTP verb each method passes to [_request]. *)
Definition verb (op : operation) : string :=
  match op with
  | GetOrder _ => "GET"
  | GenerateCoupon _ => "POST"
  | GetSubscription _ => "GET"
  | UpdateSubscription _ _ => "PUT"
  | CancelSubscription _ => "DELETE"
  | RenewSubscription _ _ => "POST"
  end.

(** The body each method has [_request] send; [None] when
    [xmltodict.unparse] raises, so that nothing is sent. *)
Definition body (op : operation) : option (pydata Payload) :=
  match op with
  | UpdateSubscription _ subscription_data =>
      option_map DStr
        (xmltodict_unparse (DDict [("subscription", subscription_data)]))
  | RenewSubscription _ simulate =>
      Some (if truthy simulate
            then DStr ("simulate=" ++ str simulate)
            else DNone)
  | _ => Some DNone
  end.

(** *** Vocabulary of the statements *)

(** What [xmltodict.parse(doc)] does to its caller: the mapping is the
    value, an exception of the library propagates. *)
Definition parsed (doc : string) : outcome Mapping :=
  match xmltodict_parse doc with
  | Some m => Return m
  | None => Raise ParseError
  end.

(** A public method ended with a parsed mapping, with the tuple of
    [renew_subscription], or with an exception. *)
Definition returns_or_raises (res : outcome value) : Prop :=
  (exists m, res = Return (Parsed m)) \/
  (exists t, res = Return (Renewed t)) \/
  (exists e, res = Raise e).

(** The contract of a read that tests [if content:] and raises
    [FastSpringException detail ...] otherwise. *)
Definition raises_iff_empty (detail : string) (r : Response)
    (res : outcome Mapping) : Prop :=
  (content r <> "" <-> res = parsed (content r)) /\
  (forall m, res = Return m <->
             content r <> "" /\ xmltodict_parse (content r) = Some m) /\
  (content r = "" <->
   res = Raise (FastSpringException detail (status_code r) "" (reason r))) /\
  (forall d s m re, res = Raise (FastSpringException d s m re) ->
                    content r = "").


(** The outcome of a parse as the outcome of a public method. *)
Definition as_value (o : outcome Mapping) : outcome value :=
  match o with
  | Return m => Return (Parsed m)
  | Raise e => Raise e
  end.

(** What each method makes of the response to its request: the tests of
    the six method bodies, gathered for the proofs. *)
Definition verdict (op : operation) (r : Response) : outcome value :=
  match op with
  | GetOrder _ =>
      if nonempty (content r)
      then as_value (parsed (content r))
      else Raise (FastSpringException "Could not get order information"
                    (status_code r) "" (reason r))
  | GenerateCoupon _ =>
      if nonempty (content r)
      then as_value (parsed (content r))
      else Raise (FastSpringException "Could not generate coupon"
                    (status_code r) "" (reason r))
  | GetSubscription _ => as_value (parsed (content r))
  | UpdateSubscription _ _ =>
      if status_code r =? 200
      then as_value (parsed (content r))
      else Raise (FastSpringException "Could not update subscription"
                    (status_code r) "" (reason r))
  | CancelSubscription _ =>
      if nonempty (content r)
      then as_value (parsed (content r))
      else if status_code r =? 200
      then Return Nothing
      else Raise (FastSpringException "Could not cancel subscription"
                    (status_code r) "" (reason r))
  | RenewSubscription _ _ =>
      Return (Renewed (status_code r =? 200, status_code r, "", reason r))
  end.

(** ** How a call runs *)

Lemma nonempty_false (s : string) : nonempty s = false <-> s = "".
Proof.
  destruct s; simpl; split; intro H; try reflexivity; discriminate H.
Qed.

Lemma nonempty_true (s : string) : nonempty s = true <-> s <> "".
Proof.
  destruct s; simpl; split; intro H; try reflexivity;
    try discriminate H; try discriminate.
  now elim H.
Qed.

(** [_request] with nothing to serialize sends [data] as it is. *)
Lemma request_plain self method path data skip_unparse sent :
  data_truthy data && negb skip_unparse = false ->
  _request self method path data skip_unparse sent =
  (let rq := prepare self method path data in
   let r := server sent rq in
   (Return (content r, status_code r, "", reason r), (sent ++ [rq])%list)).
Proof.
  intro H. unfold _request, bind, ret, requests_request. now rewrite H.
Qed.

(** [_request] with a payload sends its serialization. *)
Lemma request_unparsed self method path data sent xml :
  data_truthy data = true ->
  xmltodict_unparse data = Some xml ->
  _request self method path data false sent =
  (let rq := prepare self method path (DStr xml) in
   let r := server sent rq in
   (Return (content r, status_code r, "", reason r), (sent ++ [rq])%list)).
Proof.
  intros Ht Hx. unfold _request, bind, ret, requests_request, unparse.
  now rewrite Ht, Hx.
Qed.

(** An exception of [xmltodict.unparse] leaves before anything is sent. *)
Lemma request_unparse_raises self method path data sent :
  data_truthy data = true ->
  xmltodict_unparse data = None ->
  _request self method path data false sent = (Raise UnparseError, sent).
Proof.
  intros Ht Hx. unfold _request, bind, ret, raise, unparse.
  now rewrite Ht, Hx.
Qed.

(** The three outcomes above are all there is. *)
Lemma request_cases self method path data skip_unparse sent :
  (exists body,
      let rq := prepare self method path body in
      let r := server sent rq in
      _request self method path data skip_unparse sent =
      (Return (content r, status_code r, "", reason r), (sent ++ [rq])%list)) \/
  (data_truthy data = true /\ skip_unparse = false /\
   xmltodict_unparse data = None /\
   _request self method path data skip_unparse sent =
   (Raise UnparseError, sent)).
Proof.
  destruct (data_truthy data && negb skip_unparse) eqn:Hc.
  - apply andb_true_iff in Hc as [Ht Hs].
    apply negb_true_iff in Hs. subst skip_unparse.
    destruct (xmltodict_unparse data) as [xml|] eqn:Hx.
    + left. exists (DStr xml). now apply request_unparsed.
    + right. repeat split; trivial. now apply request_unparse_raises.
  - left. exists data. now apply request_plain.
Qed.

Lemma get_order_run self reference sent :
  get_order self reference sent =
  (let rq := prepare self "GET" ("order/" ++ reference) DNone in
   let r := server sent rq in
   (if nonempty (content r)
    then parsed (content r)
    else Raise (FastSpringException "Could not get order information"
                  (status_code r) "" (reason r)),
    (sent ++ [rq])%list)).
Proof.
  unfold get_order, bind. rewrite request_plain by reflexivity.
  cbv beta iota zeta. destruct (nonempty _); [|reflexivity].
  unfold parse, parsed, ret, raise. now destruct (xmltodict_parse _).
Qed.

Lemma generate_coupon_run self prefix sent :
  generate_coupon self prefix sent =
  (let rq := prepare self "POST" ("coupon/" ++ prefix ++ "/generate") DNone in
   let r := server sent rq in
   (if nonempty (content r)
    then parsed (content r)
    else Raise (FastSpringException "Could not generate coupon"
                  (status_code r) "" (reason r)),
    (sent ++ [rq])%list)).
Proof.
  unfold generate_coupon, bind. rewrite request_plain by reflexivity.
  cbv beta iota zeta. destruct (nonempty _); [|reflexivity].
  unfold parse, parsed, ret, raise. now destruct (xmltodict_parse _).
Qed.

Lemma get_subscription_run self reference sent :
  get_subscription self reference sent =
  (let rq := prepare self "GET" ("subscription/" ++ reference) DNone in
   let r := server sent rq in
   (parsed (content r), (sent ++ [rq])%list)).
Proof.
  unfold get_subscription, bind. rewrite request_plain by reflexivity.
  cbv beta iota zeta. unfold parse, parsed, ret, raise.
  now destruct (xmltodict_parse _).
Qed.

Lemma update_subscription_run self reference subscription_data sent xml :
  xmltodict_unparse (DDict [("subscription", subscription_data)]) = Some xml ->
  update_subscription self reference subscription_data sent =
  (let rq := prepare self "PUT" ("subscription/" ++ reference) (DStr xml) in
   let r := server sent rq in
   (if status_code r =? 200
    then parsed (content r)
    else Raise (FastSpringException "Could not update subscription"
                  (status_code r) "" (reason r)),
    (sent ++ [rq])%list)).
Proof.
  intro Hx. unfold update_subscription, bind.
  rewrite request_unparsed with (xml := xml) by (reflexivity || assumption).
  cbv beta iota zeta. destruct (_ =? 200); simpl; [|reflexivity].
  unfold parse, parsed, ret, raise. now destruct (xmltodict_parse _).
Qed.

Lemma update_subscription_unsent self reference subscription_data sent :
  xmltodict_unparse (DDict [("subscription", subscription_data)]) = None ->
  update_subscription self reference subscription_data sent =
  (Raise UnparseError, sent).
Proof.
  intro Hx. unfold update_subscription, bind.
  now rewrite request_unparse_raises by (reflexivity || assumption).
Qed.

Lemma cancel_subscription_run self reference sent :
  cancel_subscription self reference sent =
  (let rq := prepare self "DELETE" ("subscription/" ++ reference) DNone in
   let r := server sent rq in
   (if nonempty (content r)
    then match xmltodict_parse (content r) with
         | Some m => Return (Some m)
         | None => Raise ParseError
         end
    else if status_code r =? 200
    then Return None
    else Raise (FastSpringException "Could not cancel subscription"
                  (status_code r) "" (reason r)),
    (sent ++ [rq])%list)).
Proof.
  unfold cancel_subscription, bind. rewrite request_plain by reflexivity.
  cbv beta iota zeta. destruct (nonempty _).
  - unfold parse, ret, raise. now destruct (xmltodict_parse _).
  - now destruct (_ =? 200).
Qed.

Lemma renew_subscription_run self reference simulate sent :
  renew_subscription self reference simulate sent =
  (let rq := prepare self "POST" ("subscription/" ++ reference ++ "/renew")
               (if truthy simulate
                then DStr ("simulate=" ++ str simulate)
                else DNone) in
   let r := server sent rq in
   (Return (status_code r =? 200, status_code r, "", reason r),
    (sent ++ [rq])%list)).
Proof.
  unfold renew_subscription, bind.
  rewrite request_plain by apply andb_false_r.
  cbv beta iota zeta. now destruct (_ =? 200).
Qed.

Lemma bind_ret_run (A B : Type) (c : Call A) (f : A -> B) sent :
  bind c (fun a => ret (f a)) sent =
  (match result_of c sent with
   | Return a => Return (f a)
   | Raise e => Raise e
   end, trace_of c sent).
Proof.
  unfold bind, ret, result_of, trace_of.
  now destruct (c sent) as [[a|e] s'].
Qed.

(** A public method sends the one request of its row, or none when the
    payload of [update_subscription] cannot be serialized. *)
Lemma perform_trace self op sent :
  trace_of (perform self op) sent =
  match body op with
  | Some b => (sent ++ [prepare self (verb op) (resource op) b])%list
  | None => sent
  end.
Proof.
  unfold trace_of at 1.
  destruct op as [ref|pre|ref|ref d|ref|ref sim]; unfold perform;
    rewrite bind_ret_run; unfold trace_of; cbn [snd body verb resource].
  - now rewrite get_order_run.
  - now rewrite generate_coupon_run.
  - now rewrite get_subscription_run.
  - destruct (xmltodict_unparse _) as [xml|] eqn:Hx; cbn [option_map].
    + now rewrite update_subscription_run with (xml := xml).
    + now rewrite update_subscription_unsent.
  - now rewrite cancel_subscription_run.
  - now rewrite renew_subscription_run.
Qed.

(** ** Properties of the operations *)

(** C1. [renew_subscription] never raises, whatever the reference, the
    [simulate] argument and the response: on status 200 it returns
    [(True, 200, "", reason)], on any other status
    [(False, status, "", reason)]. *)
Theorem renew_subscription_never_raises self reference simulate sent :
  let rq := prepare self "POST" ("subscription/" ++ reference ++ "/renew")
              (if truthy simulate
               then DStr ("simulate=" ++ str simulate)
               else DNone) in
  let r := server sent rq in
  let res := result_of (renew_subscription self reference simulate) sent in
  (status_code r = 200 -> res = Return (true, 200, "", reason r)) /\
  (status_code r <> 200 ->
   res = Return (false, status_code r, "", reason r)) /\
  (forall e, res <> Raise e).
Proof.
  cbv zeta. unfold result_of. rewrite renew_subscription_run.
  cbv zeta. cbn [fst]. repeat split.
  - intro H. now rewrite H.
  - intro H. apply Z.eqb_neq in H. now rewrite H.
  - discriminate.
Qed.

(** C3. [cancel_subscription] on an empty body with status 200 returns
    [None] and raises nothing; on an empty body with another status it
    raises [FastSpringException] with that status and reason; on a
    non-empty body it returns the mapping [xmltodict.parse] builds (an
    exception of the parser propagates). *)
Theorem cancel_subscription_cases self reference sent :
  let rq := prepare self "DELETE" ("subscription/" ++ reference) DNone in
  let r := server sent rq in
  let res := result_of (cancel_subscription self reference) sent in
  (content r = "" -> status_code r = 200 -> res = Return None) /\
  (content r = "" -> status_code r <> 200 ->
   res = Raise (FastSpringException "Could not cancel subscription"
                  (status_code r) "" (reason r))) /\
  (content r <> "" ->
   (forall m, xmltodict_parse (content r) = Some m ->
              res = Return (Some m)) /\
   (xmltodict_parse (content r) = None -> res = Raise ParseError)).
Proof.
  cbv zeta. unfold result_of. rewrite cancel_subscription_run.
  cbv zeta. cbn [fst]. split; [|split].
  - intros Hc Hs. apply nonempty_false in Hc. now rewrite Hc, Hs.
  - intros Hc Hs. apply nonempty_false in Hc. apply Z.eqb_neq in Hs.
    now rewrite Hc, Hs.
  - intro Hc. apply nonempty_true in Hc. rewrite Hc. split.
    + intros m Hm. now rewrite Hm.
    + intro Hm. now rewrite Hm.
Qed.

(** C4. Once the payload is serialized and the request sent,
    [update_subscription] on status 200 with a body the parser accepts
    returns the parsed mapping, and on any other status raises
    [FastSpringException] carrying exactly that status and reason. *)
Theorem update_subscription_cases self reference subscription_data sent xml :
  xmltodict_unparse (DDict [("subscription", subscription_data)]) = Some xml ->
  let rq := prepare self "PUT" ("subscription/" ++ reference) (DStr xml) in
  let r := server sent rq in
  let res :=
    result_of (update_subscription self reference subscription_data) sent in
  (status_code r = 200 ->
   forall m, xmltodict_parse (content r) = Some m -> res = Return m) /\
  (status_code r <> 200 ->
   res = Raise (FastSpringException "Could not update subscription"
                  (status_code r) "" (reason r))).
Proof.
  intro Hx. cbv zeta. unfold result_of.
  rewrite update_subscription_run with (xml := xml) by assumption.
  cbv zeta. cbn [fst]. split.
  - intros Hs m Hm. rewrite Hs, Z.eqb_refl. unfold parsed. now rewrite Hm.
  - intro Hs. apply Z.eqb_neq in Hs. now rewrite Hs.
Qed.

Lemma parsed_not_operation_error doc d s m re :
  parsed doc <> Raise (FastSpringException d s m re).
Proof.
  unfold parsed. destruct (xmltodict_parse doc); discriminate.
Qed.

Lemma parsed_returns doc m :
  parsed doc = Return m <-> xmltodict_parse doc = Some m.
Proof.
  unfold parsed. destruct (xmltodict_parse doc) as [m0|]; split; intro H;
    try discriminate H; now inversion H.
Qed.

Lemma raises_iff_empty_intro detail r :
  raises_iff_empty detail r
    (if nonempty (content r)
     then parsed (content r)
     else Raise (FastSpringException detail (status_code r) ""
                   (reason r))).
Proof.
  unfold raises_iff_empty.
  destruct (nonempty (content r)) eqn:Hn.
  - assert (Hne : content r <> "") by now apply nonempty_true.
    split; [|split; [|split]].
    + tauto.
    + intro m. rewrite parsed_returns. tauto.
    + split; intro H; [contradiction|].
      now apply parsed_not_operation_error in H.
    + intros d s m re H. now apply parsed_not_operation_error in H.
  - assert (He : content r = "") by now apply nonempty_false.
    split; [|split; [|split]].
    + split; intro H; [contradiction|].
      symmetry in H. now apply parsed_not_operation_error in H.
    + intro m. split; [discriminate|]. intros [H _]. contradiction.
    + tauto.
    + auto.
Qed.

(** C5. [get_order] hands the body to the parser and returns its mapping
    exactly when the body is non-empty, and raises [FastSpringException]
    with the status, the (empty) message and the reason of the response
    exactly when the body is empty; [generate_coupon] does the same for
    every prefix. *)
Theorem get_order_generate_coupon_cases self sent :
  (forall reference,
      let rq := prepare self "GET" ("order/" ++ reference) DNone in
      raises_iff_empty "Could not get order information" (server sent rq)
        (result_of (get_order self reference) sent)) /\
  (forall prefix,
      let rq := prepare self "POST" ("coupon/" ++ prefix ++ "/generate")
                  DNone in
      raises_iff_empty "Could not generate coupon" (server sent rq)
        (result_of (generate_coupon self prefix) sent)).
Proof.
  split.
  - intros reference rq. unfold result_of. rewrite get_order_run.
    cbv zeta. cbn [fst]. apply raises_iff_empty_intro.
  - intros prefix rq. unfold result_of. rewrite generate_coupon_run.
    cbv zeta. cbn [fst]. apply raises_iff_empty_intro.
Qed.

(** C6. [get_subscription] tests no success condition: whatever the status
    and the body, empty or not, its outcome is that of [xmltodict.parse] on
    the body, and it never raises [FastSpringException]. *)
Theorem get_subscription_unconditional self reference sent :
  let rq := prepare self "GET" ("subscription/" ++ reference) DNone in
  let r := server sent rq in
  let res := result_of (get_subscription self reference) sent in
  res = parsed (content r) /\
  (forall m, res = Return m <-> xmltodict_parse (content r) = Some m) /\
  (forall e, res = Raise e ->
             e = ParseError /\ xmltodict_parse (content r) = None) /\
  (forall d s m re, res <> Raise (FastSpringException d s m re)).
Proof.
  cbv zeta. unfold result_of. rewrite get_subscription_run.
  cbv zeta. cbn [fst]. split; [reflexivity|].
  split; [intro m; apply parsed_returns|]. split.
  - intros e H. unfold parsed in H.
    destruct (xmltodict_parse _); [discriminate H|].
    inversion H. now split.
  - intros d s m re. apply parsed_not_operation_error.
Qed.

(** Brings the outcome of [perform self op] to the tests it depends on. *)
Ltac run_method :=
  unfold result_of; unfold perform; rewrite bind_ret_run; unfold result_of;
  rewrite ?get_order_run, ?generate_coupon_run, ?get_subscription_run,
    ?cancel_subscription_run, ?renew_subscription_run;
  cbv zeta; cbn [fst].

Ltac split_tests :=
  repeat match goal with
    | |- context [if ?b then _ else _] => destruct b eqn:?
    | |- context [parsed ?d] =>
        unfold parsed; destruct (xmltodict_parse d) eqn:?
    | |- context [match xmltodict_parse ?d with _ => _ end] =>
        destruct (xmltodict_parse d) eqn:?
    end.

Lemma update_subscription_result self reference subscription_data sent :
  (exists m,
      result_of (update_subscription self reference subscription_data) sent =
      Return m) \/
  (exists e,
      result_of (update_subscription self reference subscription_data) sent =
      Raise e /\
      forall d s m re, e = FastSpringException d s m re -> m = "").
Proof.
  unfold result_of.
  destruct (xmltodict_unparse (DDict [("subscription", subscription_data)]))
    as [xml|] eqn:Hx.
  - rewrite update_subscription_run with (xml := xml) by assumption.
    cbv zeta. cbn [fst]. split_tests.
    + left. eauto.
    + right. eexists. split; [reflexivity|]. discriminate.
    + right. eexists. split; [reflexivity|]. intros d s m re H. now inversion H.
  - rewrite update_subscription_unsent by assumption. cbn [fst].
    right. eexists. split; [reflexivity|]. discriminate.
Qed.

(** C2, amended. Every operation ends in exactly one way: it returns a
    parsed mapping (for [renew_subscription], always its tuple), or it
    raises, or, for [cancel_subscription] alone and only on an empty body
    with status 200, it returns [None]. *)
Theorem perform_outcomes self op sent :
  let res := result_of (perform self op) sent in
  (returns_or_raises res \/
   exists reference,
     let r := server sent
                (prepare self "DELETE" ("subscription/" ++ reference) DNone) in
     op = CancelSubscription reference /\
     content r = "" /\ status_code r = 200 /\ res = Return Nothing) /\
  (forall t, res = Return (Renewed t) ->
             exists reference simulate,
               op = RenewSubscription reference simulate) /\
  (forall reference simulate,
      op = RenewSubscription reference simulate ->
      exists t, res = Return (Renewed t)) /\
  (forall v e, ~ (res = Return v /\ res = Raise e)).
Proof.
  cbv zeta. split; [|split; [|split]].
  - unfold returns_or_raises.
    destruct op as [ref|pre|ref|ref d|ref|ref sim].
    + left. run_method. split_tests; eauto.
    + left. run_method. split_tests; eauto.
    + left. run_method. split_tests; eauto.
    + left. unfold result_of, perform. rewrite bind_ret_run. cbn [fst].
      destruct (update_subscription_result self ref d sent)
        as [[m H]|[e [H _]]]; rewrite H; eauto.
    + run_method.
      destruct (nonempty _) eqn:Hc; [left; split_tests; eauto|].
      destruct (_ =? 200) eqn:Hs; [|left; eauto].
      right. exists ref. cbv zeta.
      repeat split; try (now apply nonempty_false).
      now apply Z.eqb_eq.
    + left. run_method. eauto.
  - intro t. destruct op as [ref|pre|ref|ref d|ref|ref sim].
    + run_method. split_tests; discriminate.
    + run_method. split_tests; discriminate.
    + run_method. split_tests; discriminate.
    + unfold result_of, perform. rewrite bind_ret_run. cbn [fst].
      destruct (update_subscription_result self ref d sent)
        as [[m H]|[e [H _]]]; rewrite H; discriminate.
    + run_method. split_tests; discriminate.
    + eauto.
  - intros ref sim ->. run_method. eauto.
  - intros v e [H1 H2]. rewrite H1 in H2. discriminate H2.
Qed.




(** C8. [_request] either raises from [xmltodict.unparse] before anything
    is sent or returns the 4-tuple of the response with the empty string as
    its message; so every [FastSpringException] a public method raises, and
    the tuple of [renew_subscription], carry the empty message. *)
Theorem request_message_empty self :
  (forall method path data skip_unparse sent,
      (exists rq,
          let r := server sent rq in
          _request self method path data skip_unparse sent =
          (Return (content r, status_code r, "", reason r),
           (sent ++ [rq])%list)) \/
      (data_truthy data = true /\ skip_unparse = false /\
       xmltodict_unparse data = None /\
       _request self method path data skip_unparse sent =
       (Raise UnparseError, sent))) /\
  (forall method path data skip_unparse sent t,
      result_of (_request self method path data skip_unparse) sent =
      Return t ->
      reply_message t = "") /\
  (forall op sent d s m re,
      result_of (perform self op) sent =
      Raise (FastSpringException d s m re) ->
      m = "") /\
  (forall reference simulate sent,
      exists ok s re,
        result_of (renew_subscription self reference simulate) sent =
        Return (ok, s, "", re)).
Proof.
  split; [|split; [|split]].
  - intros method path data skip_unparse sent.
    destruct (request_cases self method path data skip_unparse sent)
      as [[b H]|H]; [left; now exists (prepare self method path b)|now right].
  - intros method path data skip_unparse sent t. unfold result_of.
    destruct (request_cases self method path data skip_unparse sent)
      as [[b H]|[_ [_ [_ H]]]]; cbv zeta in H; rewrite H; cbn [fst];
      intro Ht; [|discriminate Ht].
    now inversion Ht.
  - intros op sent d s m re.
    destruct op as [ref|pre|ref|ref pd|ref|ref sim].
    + run_method. split_tests; intro H; now inversion H.
    + run_method. split_tests; intro H; now inversion H.
    + run_method. split_tests; intro H; now inversion H.
    + unfold result_of, perform. rewrite bind_ret_run. cbn [fst].
      destruct (update_subscription_result self ref pd sent)
        as [[m0 H]|[e [H He]]]; rewrite H; intro H'; [discriminate H'|].
      inversion H'. eapply He. eassumption.
    + run_method. split_tests; intro H; now inversion H.
    + run_method. intro H. discriminate H.
  - intros reference simulate sent. unfold result_of.
    rewrite renew_subscription_run. cbv zeta. cbn [fst]. eauto.
Qed.

(** C10. [renew_subscription] sends the body ['simulate=' + str(simulate)]
    exactly when [simulate] is truthy; for a falsy [simulate], such as
    [None], [''], [False] and [0], it sends no body and the whole call is
    the one made with the argument left out. *)
Theorem renew_subscription_body self reference sent :
  (forall simulate,
      exists rq,
        trace_of (renew_subscription self reference simulate) sent =
        (sent ++ [rq])%list /\
        rq_data rq = (if truthy simulate
                      then DStr ("simulate=" ++ str simulate)
                      else DNone) /\
        (truthy simulate = true <->
         rq_data rq = DStr ("simulate=" ++ str simulate))) /\
  (forall simulate,
      truthy simulate = false ->
      renew_subscription self reference simulate sent =
      renew_subscription self reference PyNone sent) /\
  (forall simulate,
      In simulate [PyNone; PyStr ""; PyBool false; PyInt 0] ->
      truthy simulate = false /\
      trace_of (renew_subscription self reference simulate) sent =
      (sent ++ [prepare self "POST" ("subscription/" ++ reference ++ "/renew")
                  DNone])%list).
Proof.
  split; [|split].
  - intro simulate. unfold trace_of. rewrite renew_subscription_run.
    cbv zeta. cbn [snd]. eexists. split; [reflexivity|].
    cbn [rq_data prepare]. split; [reflexivity|].
    destruct (truthy simulate); split; trivial; discriminate.
  - intros simulate H. rewrite !renew_subscription_run. cbv zeta.
    now rewrite H.
  - intros simulate H. unfold trace_of. rewrite renew_subscription_run.
    cbv zeta. cbn [snd].
    cbn [In] in H.
    destruct H as [<-|[<-|[<-|[<-|[]]]]]; split; reflexivity.
Qed.


(** ** Further properties of the operations *)

(** The outcome of a public method is [verdict] on the response to the one
    request it sends. *)
Lemma perform_result self op sent :
  result_of (perform self op) sent =
  match body op with
  | Some b => verdict op (server sent (prepare self (verb op) (resource op) b))
  | None => Raise UnparseError
  end.
Proof.
  destruct op as [ref|pre|ref|ref d|ref|ref sim];
    cbn [body verb resource verdict].
  - run_method. now destruct (nonempty _); [destruct (parsed _)|].
  - run_method. now destruct (nonempty _); [destruct (parsed _)|].
  - run_method. now destruct (parsed _).
  - unfold result_of, perform. rewrite bind_ret_run. cbn [fst].
    unfold result_of.
    destruct (xmltodict_unparse _) as [xml|] eqn:Hx; cbn [option_map].
    + rewrite update_subscription_run with (xml := xml) by assumption.
      cbv zeta. cbn [fst].
      now destruct (_ =? 200); [destruct (parsed _)|].
    + now rewrite update_subscription_unsent.
  - run_method. unfold parsed.
    destruct (nonempty _); [now destruct (xmltodict_parse _)|].
    now destruct (_ =? 200).
  - run_method. reflexivity.
Qed.

Lemma as_value_parsed_raise doc e :
  as_value (parsed doc) = Raise e -> e = ParseError.
Proof.
  unfold parsed. destruct (xmltodict_parse doc); cbn [as_value]; intro H;
    [discriminate H|now inversion H].
Qed.

Lemma as_value_parsed_return doc v :
  as_value (parsed doc) = Return v ->
  exists m, v = Parsed m /\ xmltodict_parse doc = Some m.
Proof.
  unfold parsed. destruct (xmltodict_parse doc) as [m|]; cbn [as_value];
    intro H; [|discriminate H].
  inversion H. now exists m.
Qed.

(** Where a [FastSpringException] comes from: a request was sent, the
    exception carries the status and the reason of its response and the empty
    message, its detail names the method, and the response failed that
    method's test (an empty body for [get_order] and [generate_coupon], a
    status other than 200 for [update_subscription], both for
    [cancel_subscription]).  [get_subscription] and [renew_subscription]
    raise none. *)
Theorem operation_error_origin self op sent d s m re :
  result_of (perform self op) sent = Raise (FastSpringException d s m re) ->
  exists b,
    body op = Some b /\
    let r := server sent (prepare self (verb op) (resource op) b) in
    s = status_code r /\ m = "" /\ re = reason r /\
    match op with
    | GetOrder _ =>
        d = "Could not get order information" /\ content r = ""
    | GenerateCoupon _ =>
        d = "Could not generate coupon" /\ content r = ""
    | UpdateSubscription _ _ =>
        d = "Could not update subscription" /\ status_code r <> 200
    | CancelSubscription _ =>
        d = "Could not cancel subscription" /\
        content r = "" /\ status_code r <> 200
    | GetSubscription _ | RenewSubscription _ _ => False
    end.
Proof.
  rewrite perform_result. destruct (body op) as [b|]; [|discriminate].
  intro H. exists b. split; [reflexivity|]. cbv zeta.
  set (r := server sent _) in *. clearbody r.
  destruct op as [ref|pre|ref|ref pd|ref|ref sim]; cbn [verdict] in H.
  - destruct (nonempty (content r)) eqn:Hc.
    + apply as_value_parsed_raise in H. discriminate H.
    + apply nonempty_false in Hc. now inversion H.
  - destruct (nonempty (content r)) eqn:Hc.
    + apply as_value_parsed_raise in H. discriminate H.
    + apply nonempty_false in Hc. now inversion H.
  - apply as_value_parsed_raise in H. discriminate H.
  - destruct (status_code r =? 200) eqn:Hs.
    + apply as_value_parsed_raise in H. discriminate H.
    + apply Z.eqb_neq in Hs. now inversion H.
  - destruct (nonempty (content r)) eqn:Hc.
    + apply as_value_parsed_raise in H. discriminate H.
    + apply nonempty_false in Hc.
      destruct (status_code r =? 200) eqn:Hs; [discriminate H|].
      apply Z.eqb_neq in Hs. now inversion H.
  - discriminate H.
Qed.

(** Where a returned mapping comes from: a request was sent and the mapping
    is what [xmltodict.parse] built from the body of its response; that body
    was non-empty for [get_order], [generate_coupon] and
    [cancel_subscription], and the status was 200 for [update_subscription].
    [renew_subscription] returns no mapping. *)
Theorem returned_mapping_origin self op sent m :
  result_of (perform self op) sent = Return (Parsed m) ->
  exists b,
    body op = Some b /\
    let r := server sent (prepare self (verb op) (resource op) b) in
    xmltodict_parse (content r) = Some m /\
    match op with
    | GetOrder _ | GenerateCoupon _ | CancelSubscription _ =>
        content r <> ""
    | UpdateSubscription _ _ => status_code r = 200
    | GetSubscription _ => True
    | RenewSubscription _ _ => False
    end.
Proof.
  rewrite perform_result. destruct (body op) as [b|]; [|discriminate].
  intro H. exists b. split; [reflexivity|]. cbv zeta.
  set (r := server sent _) in *. clearbody r.
  assert (Hparsed : forall doc, as_value (parsed doc) = Return (Parsed m) ->
                                xmltodict_parse doc = Some m).
  { intros doc Hd. apply as_value_parsed_return in Hd as [m' [Hm Hp]].
    inversion Hm. now subst m'. }
  destruct op as [ref|pre|ref|ref pd|ref|ref sim]; cbn [verdict] in H.
  - destruct (nonempty (content r)) eqn:Hc; [|discriminate H].
    apply nonempty_true in Hc. auto.
  - destruct (nonempty (content r)) eqn:Hc; [|discriminate H].
    apply nonempty_true in Hc. auto.
  - auto.
  - destruct (status_code r =? 200) eqn:Hs; [|discriminate H].
    apply Z.eqb_eq in Hs. auto.
  - destruct (nonempty (content r)) eqn:Hc.
    + apply nonempty_true in Hc. auto.
    + destruct (status_code r =? 200); discriminate H.
  - discriminate H.
Qed.


(** *** Strings *)





(** The decimal numeral of an int reads back as that int. *)
Lemma str_int_reads_back n :
  option_map Z.of_int (NilZero.int_of_string (str (PyInt n))) = Some n.
Proof.
  cbn [str]. rewrite NilZero.isi.
  - cbn [option_map]. now rewrite DecimalZ.of_to.
  - destruct n; cbn [Z.to_int]; intro H; inversion H.
    now apply DecimalPos.Unsigned.to_uint_nonnil in H1.
  - destruct n; cbn [Z.to_int]; intro H; inversion H.
    now apply DecimalPos.Unsigned.to_uint_nonnil in H1.
Qed.

(** A truthy value has a non-empty rendering. *)
Lemma truthy_str_nonempty v : truthy v = true -> nonempty (str v) = true.
Proof.
  destruct v as [|[|]|n|s]; cbn [truthy]; intro H;
    try discriminate H; try reflexivity; try assumption.
  destruct (str (PyInt n)) eqn:Hs; [|reflexivity].
  pose proof (str_int_reads_back n) as Hr. rewrite Hs in Hr.
  discriminate Hr.
Qed.


(** The configuration given to the constructor is the one on the wire:
    every request of a client built by [__init__] authenticates with the
    given username and password and goes to the tenant's path joined to the
    given base URL, or to [https://api.fastspring.com] when none is given. *)
Theorem constructed_client_requests u p c base op sent :
  let self := __init__ u p c base in
  exists new,
    trace_of (perform self op) sent = (sent ++ new)%list /\
    Forall (fun rq =>
              rq_auth rq = (u, p) /\
              rq_url rq =
              urljoin (match base with
                       | Some b => b
                       | None => "https://api.fastspring.com"
                       end)
                ("/company/" ++ c ++ "/" ++ resource op)) new.
Proof.
  cbv zeta. rewrite perform_trace. destruct (body op) as [b|].
  - eexists. split; [reflexivity|]. constructor; [|constructor].
    now split.
  - exists []. rewrite app_nil_r. split; [reflexivity|constructor].
Qed.

(** A non-zero int passed as [simulate] goes out as [simulate=] followed by
    its decimal numeral, from which the int reads back. *)
Theorem renew_subscription_int_flag self reference n sent :
  n <> 0 ->
  exists digits,
    trace_of (renew_subscription self reference (PyInt n)) sent =
    (sent ++ [prepare self "POST" ("subscription/" ++ reference ++ "/renew")
                (DStr ("simulate=" ++ digits))])%list /\
    option_map Z.of_int (NilZero.int_of_string digits) = Some n.
Proof.
  intro Hn. exists (str (PyInt n)). split; [|apply str_int_reads_back].
  unfold trace_of. rewrite renew_subscription_run. cbv zeta. cbn [snd truthy].
  apply Z.eqb_neq in Hn. now rewrite Hn.
Qed.

(** A truthy [simulate] counts only through its text: the call is the one
    made with [str(simulate)], so that [1] and ['1'], or [True] and
    ['True'], cannot be told apart. *)
Theorem renew_subscription_flag_as_text self reference simulate sent :
  truthy simulate = true ->
  renew_subscription self reference simulate sent =
  renew_subscription self reference (PyStr (str simulate)) sent.
Proof.
  intro H. rewrite !renew_subscription_run. cbv zeta.
  cbn [truthy str]. now rewrite H, (truthy_str_nonempty _ H).
Qed.

End Client.

Arguments GetOrder {Payload} reference.
Arguments GenerateCoupon {Payload} prefix.
Arguments GetSubscription {Payload} reference.
Arguments CancelSubscription {Payload} reference.
Arguments RenewSubscription {Payload} reference simulate.
Arguments Parsed {Mapping} m.
Arguments Renewed {Mapping} t.
Arguments Nothing {Mapping}.

(** ** What [urljoin] makes of the client's paths *)

Module UrlparseFacts.

Import Urlparse.
Local Unset Implicit Arguments.





Lemma partition_inv c s a b :
  partition c s = Some (a, b) -> s = a ++ String c b.
Proof.
  revert a b. induction s as [|x s IH]; cbn [partition]; intros a b H;
    [discriminate H|].
  destruct (Ascii.eqb x c) eqn:E.
  - apply Ascii.eqb_eq in E. inversion H. now subst.
  - destruct (partition c s) as [[a' b']|]; [|discriminate H].
    injection H as <- <-. cbn [append]. now rewrite (IH a' b' eq_refl).
Qed.






















End UrlparseFacts.


(** ** The client at work on the canned environment *)

(** C2 as stated fails: a cancellation answered with status 200 and an
    empty body returns [None], which is neither a mapping, nor a tuple, nor
    an exception. *)
Lemma cancel_subscription_returns_nothing :
  result_of
    (perform Fixture.parse Fixture.unparse Fixture.urljoin Fixture.ok_empty
       Fixture.api (CancelSubscription "SUB1")) [] = Return Nothing /\
  ~ returns_or_raises
      (result_of
         (perform Fixture.parse Fixture.unparse Fixture.urljoin
            Fixture.ok_empty Fixture.api (CancelSubscription "SUB1")) []).
Proof.
  split; [reflexivity|].
  intros [[m H]|[[t H]|[e H]]]; discriminate H.
Qed.

(** The amended C2 at that call and at a renewal the server fails. *)
Lemma perform_outcomes_witness :
  (forall t,
      result_of
        (perform Fixture.parse Fixture.unparse Fixture.urljoin
           Fixture.ok_empty Fixture.api (CancelSubscription "SUB1")) [] <>
      Return (Renewed t)) /\
  exists t,
    result_of
      (perform Fixture.parse Fixture.unparse Fixture.urljoin
         Fixture.server_error Fixture.api
         (RenewSubscription "SUB1" PyNone)) [] =
    Return (Renewed t).
Proof.
  split.
  - intros t H.
    destruct (proj1 (proj2 (perform_outcomes Fixture.parse Fixture.unparse
                              Fixture.urljoin Fixture.ok_empty Fixture.api
                              (CancelSubscription "SUB1") [])) t H)
      as [reference [simulate Hop]].
    discriminate Hop.
  - apply (proj1 (proj2 (proj2
                     (perform_outcomes Fixture.parse Fixture.unparse
                        Fixture.urljoin Fixture.server_error Fixture.api
                        (RenewSubscription "SUB1" PyNone) [])))
             "SUB1" PyNone eq_refl).
Defined.

(** C1 on a renewal that succeeds and on one that is refused. *)
Lemma renew_subscription_never_raises_witness :
  result_of
    (renew_subscription Fixture.unparse Fixture.urljoin Fixture.ok_empty
       Fixture.api "SUB1" PyNone) [] = Return (true, 200, "", "OK") /\
  result_of
    (renew_subscription Fixture.unparse Fixture.urljoin Fixture.by_method
       Fixture.api "SUB1" (PyBool true)) [] =
  Return (false, 403, "", "Forbidden").
Proof.
  split.
  - apply (proj1 (renew_subscription_never_raises Fixture.unparse
                    Fixture.urljoin Fixture.ok_empty Fixture.api
                    "SUB1" PyNone [])).
    reflexivity.
  - apply (proj1 (proj2 (renew_subscription_never_raises Fixture.unparse
                           Fixture.urljoin Fixture.by_method Fixture.api
                           "SUB1" (PyBool true) []))).
    discriminate.
Defined.

(** C3 on its three cases. *)
Lemma cancel_subscription_cases_witness :
  result_of
    (cancel_subscription Fixture.parse Fixture.unparse Fixture.urljoin
       Fixture.ok_empty Fixture.api "SUB1") [] = Return None /\
  result_of
    (cancel_subscription Fixture.parse Fixture.unparse Fixture.urljoin
       Fixture.by_method Fixture.api "SUB1") [] =
  Raise (FastSpringException "Could not cancel subscription" 403 ""
           "Forbidden") /\
  result_of
    (cancel_subscription Fixture.parse Fixture.unparse Fixture.urljoin
       (Fixture.ok_with "<subscription/>") Fixture.api "SUB1") [] =
  Return (Some "<subscription/>").
Proof.
  split; [|split].
  - apply (proj1 (cancel_subscription_cases Fixture.parse Fixture.unparse
                    Fixture.urljoin Fixture.ok_empty Fixture.api "SUB1" []));
      reflexivity.
  - apply (proj1 (proj2 (cancel_subscription_cases Fixture.parse
                           Fixture.unparse Fixture.urljoin Fixture.by_method
                           Fixture.api "SUB1" [])));
      [reflexivity|discriminate].
  - apply (proj1 (proj2 (proj2 (cancel_subscription_cases Fixture.parse
                                  Fixture.unparse Fixture.urljoin
                                  (Fixture.ok_with "<subscription/>")
                                  Fixture.api "SUB1" []))
             ltac:(discriminate)));
      reflexivity.
Defined.

(** C4 on an update that is accepted and on one that is refused. *)
Lemma update_subscription_cases_witness :
  result_of
    (update_subscription Fixture.parse Fixture.unparse Fixture.urljoin
       (Fixture.ok_with "<subscription/>") Fixture.api "SUB1" "monthly") [] =
  Return "<subscription/>" /\
  result_of
    (update_subscription Fixture.parse Fixture.unparse Fixture.urljoin
       Fixture.by_method Fixture.api "SUB1" "monthly") [] =
  Raise (FastSpringException "Could not update subscription" 403 ""
           "Forbidden").
Proof.
  split.
  - apply (proj1 (update_subscription_cases Fixture.parse Fixture.unparse
                    Fixture.urljoin (Fixture.ok_with "<subscription/>")
                    Fixture.api "SUB1" "monthly" []
                    (xml := "<subscription>monthly</subscription>")
                    eq_refl));
      reflexivity.
  - apply (proj2 (update_subscription_cases Fixture.parse Fixture.unparse
                    Fixture.urljoin Fixture.by_method Fixture.api
                    "SUB1" "monthly" []
                    (xml := "<subscription>monthly</subscription>")
                    eq_refl)).
    discriminate.
Defined.

(** C5 on an order that is found and on a coupon that is refused. *)
Lemma get_order_generate_coupon_cases_witness :
  result_of
    (get_order Fixture.parse Fixture.unparse Fixture.urljoin
       Fixture.by_method Fixture.api "ACME1") [] =
  Return "<order><reference>ACME1</reference></order>" /\
  result_of
    (generate_coupon Fixture.parse Fixture.unparse Fixture.urljoin
       Fixture.by_method Fixture.api "SPRING") [] =
  Raise (FastSpringException "Could not generate coupon" 403 "" "Forbidden").
Proof.
  destruct (get_order_generate_coupon_cases Fixture.parse Fixture.unparse
              Fixture.urljoin Fixture.by_method Fixture.api [])
    as [Horder Hcoupon].
  split.
  - destruct (Horder "ACME1") as [_ [Hreturns _]].
    apply Hreturns. split; [discriminate|reflexivity].
  - destruct (Hcoupon "SPRING") as [_ [_ [Hraises _]]].
    apply Hraises. reflexivity.
Defined.


(** C8 on a renewal and on a read that the server fails. *)
Lemma request_message_empty_witness :
  (exists ok s re,
      result_of
        (renew_subscription Fixture.unparse Fixture.urljoin
           Fixture.server_error Fixture.api "SUB1" PyNone) [] =
      Return (ok, s, "", re)) /\
  (exists rq,
      _request Fixture.unparse Fixture.urljoin Fixture.server_error
        Fixture.api "GET" "order/ACME1" (@DNone string) false [] =
      (Return ("", 500, "", "Internal Server Error"), [rq])).
Proof.
  destruct (request_message_empty Fixture.parse Fixture.unparse
              Fixture.urljoin Fixture.server_error Fixture.api)
    as [Hrequest [_ [_ Hrenew]]].
  split.
  - apply Hrenew.
  - destruct (Hrequest "GET" "order/ACME1" (@DNone string) false [])
      as [H|[H _]]; [exact H|discriminate H].
Defined.

(** C10 on a truthy flag and on the empty string. *)
Lemma renew_subscription_body_witness :
  (exists rq,
      trace_of
        (renew_subscription Fixture.unparse Fixture.urljoin Fixture.ok_empty
           Fixture.api "SUB1" (PyBool true)) [] = [rq] /\
      rq_data rq = DStr "simulate=True") /\
  renew_subscription Fixture.unparse Fixture.urljoin Fixture.ok_empty
    Fixture.api "SUB1" (PyStr "") [] =
  renew_subscription Fixture.unparse Fixture.urljoin Fixture.ok_empty
    Fixture.api "SUB1" PyNone [].
Proof.
  destruct (renew_subscription_body Fixture.unparse Fixture.urljoin
              Fixture.ok_empty Fixture.api "SUB1" [])
    as [Hbody [Hfalsy _]].
  split.
  - destruct (Hbody (PyBool true)) as [rq [Htrace [Hdata _]]].
    exists rq. split; assumption.
  - apply Hfalsy. reflexivity.
Defined.

(** ** Calls do not depend on one another *)

(** The client keeps no state between calls.  What a call sends is fixed by
    the client and the operation, whatever was sent before and whatever the
    server is; and its outcome depends on the server and on earlier calls
    only through the response to what it sends. *)
Theorem call_is_stateless (Mapping Payload : Type)
    (xmltodict_parse : string -> option Mapping)
    (xmltodict_unparse : pydata Payload -> option string)
    (urljoin : string -> string -> string)
    (self : FastSpringAPI) (op : operation Payload) :
  exists new,
    (forall server sent,
        trace_of
          (perform xmltodict_parse xmltodict_unparse urljoin server self op)
          sent = (sent ++ new)%list) /\
    (forall server1 server2 sent1 sent2,
        (forall rq, In rq new -> server1 sent1 rq = server2 sent2 rq) ->
        result_of
          (perform xmltodict_parse xmltodict_unparse urljoin server1 self op)
          sent1 =
        result_of
          (perform xmltodict_parse xmltodict_unparse urljoin server2 self op)
          sent2).
Proof.
  destruct (body xmltodict_unparse op) as [b|] eqn:Hb.
  - exists [prepare urljoin self (verb op) (resource op) b]. split.
    + intros server sent. now rewrite perform_trace, Hb.
    + intros server1 server2 sent1 sent2 H.
      rewrite !perform_result, Hb. f_equal. apply H. now left.
  - exists []. split.
    + intros server sent. rewrite perform_trace, Hb. now rewrite app_nil_r.
    + intros server1 server2 sent1 sent2 _.
      now rewrite !perform_result, Hb.
Qed.

(** A first call to a throttling server and a later call to a plain one
    that answers alike end alike. *)
Lemma call_is_stateless_witness :
  result_of
    (perform Fixture.parse Fixture.unparse Fixture.urljoin Fixture.first_only
       Fixture.api (GetOrder "ACME1")) [] =
  result_of
    (perform Fixture.parse Fixture.unparse Fixture.urljoin
       (Fixture.ok_with "<order/>") Fixture.api (GetOrder "ACME1"))
    [prepare Fixture.urljoin Fixture.api "GET" "order/ACME0" DNone].
Proof.
  destruct (call_is_stateless Fixture.parse Fixture.unparse Fixture.urljoin
              Fixture.api (GetOrder "ACME1")) as [new [_ Hsame]].
  apply Hsame. intros rq _. reflexivity.
Defined.

(** The exception of a refused cancellation traced back to its response. *)
Lemma operation_error_origin_witness :
  exists b : pydata string,
    body Fixture.unparse (CancelSubscription "SUB1") = Some b /\
    content
      (Fixture.by_method []
         (prepare Fixture.urljoin Fixture.api "DELETE" "subscription/SUB1"
            b)) = "".
Proof.
  destruct (@operation_error_origin string string Fixture.parse
              Fixture.unparse Fixture.urljoin Fixture.by_method Fixture.api
              (CancelSubscription "SUB1") []
              "Could not cancel subscription" 403 "" "Forbidden" eq_refl)
    as [b [Hb H]].
  cbv zeta in H. destruct H as [_ [_ [_ [_ [Hc _]]]]].
  exists b. split; assumption.
Defined.

(** The mapping of an order traced back to the body that was parsed. *)
Lemma returned_mapping_origin_witness :
  exists b : pydata string,
    body Fixture.unparse (GetOrder "ACME1") = Some b /\
    Fixture.parse
      (content
         (Fixture.by_method []
            (prepare Fixture.urljoin Fixture.api "GET" "order/ACME1" b))) =
    Some "<order><reference>ACME1</reference></order>".
Proof.
  destruct (@returned_mapping_origin string string Fixture.parse
              Fixture.unparse Fixture.urljoin Fixture.by_method Fixture.api
              (GetOrder "ACME1") []
              "<order><reference>ACME1</reference></order>" eq_refl)
    as [b [Hb H]].
  cbv zeta in H. destruct H as [Hm _].
  exists b. split; assumption.
Defined.

(** The flag [-30] on the wire. *)
Lemma renew_subscription_int_flag_witness :
  exists digits,
    trace_of
      (renew_subscription Fixture.unparse Fixture.urljoin Fixture.ok_empty
         Fixture.api "SUB1" (PyInt (-30))) [] =
    [prepare Fixture.urljoin Fixture.api "POST" "subscription/SUB1/renew"
       (DStr ("simulate=" ++ digits))] /\
    option_map Z.of_int (NilZero.int_of_string digits) = Some (-30).
Proof.
  apply (@renew_subscription_int_flag string Fixture.unparse Fixture.urljoin
           Fixture.ok_empty Fixture.api "SUB1" (-30) []).
  discriminate.
Defined.

(** The int [1] and the text ['1'] make the same call. *)
Lemma renew_subscription_flag_as_text_witness :
  renew_subscription Fixture.unparse Fixture.urljoin Fixture.ok_empty
    Fixture.api "SUB1" (PyInt 1) [] =
  renew_subscription Fixture.unparse Fixture.urljoin Fixture.ok_empty
    Fixture.api "SUB1" (PyStr "1") [].
Proof.
  apply (@renew_subscription_flag_as_text string Fixture.unparse
           Fixture.urljoin Fixture.ok_empty Fixture.api "SUB1" (PyInt 1) []).
  reflexivity.
Defined.

(** ** What each operation does not read *)

(** The parts of a response an operation never looks at.  Two responses
    give the same outcome when they agree on the body, for
    [get_subscription]; on a non-empty body, for [get_order],
    [generate_coupon] and [cancel_subscription], whatever their statuses; on
    a status other than 200 and the reason, for [update_subscription],
    whatever their bodies; on the status and the reason, for
    [renew_subscription], whatever their bodies. *)
Theorem unread_response_fields (Mapping Payload : Type)
    (xmltodict_parse : string -> option Mapping)
    (xmltodict_unparse : pydata Payload -> option string)
    (urljoin : string -> string -> string)
    (server1 server2 : list (Request Payload) -> Request Payload -> Response)
    (self : FastSpringAPI) (op : operation Payload)
    (sent1 sent2 : list (Request Payload)) :
  (forall b,
      body xmltodict_unparse op = Some b ->
      let rq := prepare urljoin self (verb op) (resource op) b in
      let r1 := server1 sent1 rq in
      let r2 := server2 sent2 rq in
      match op with
      | GetSubscription _ => content r1 = content r2
      | GetOrder _ | GenerateCoupon _ | CancelSubscription _ =>
          content r1 = content r2 /\ content r1 <> ""
      | UpdateSubscription _ _ =>
          status_code r1 = status_code r2 /\ reason r1 = reason r2 /\
          status_code r1 <> 200
      | RenewSubscription _ _ =>
          status_code r1 = status_code r2 /\ reason r1 = reason r2
      end) ->
  result_of
    (perform xmltodict_parse xmltodict_unparse urljoin server1 self op)
    sent1 =
  result_of
    (perform xmltodict_parse xmltodict_unparse urljoin server2 self op)
    sent2.
Proof.
  intro H. rewrite !perform_result.
  destruct (body xmltodict_unparse op) as [b|]; [|reflexivity].
  specialize (H b eq_refl). cbv zeta in H.
  set (r1 := server1 sent1 _) in *. set (r2 := server2 sent2 _) in *.
  clearbody r1 r2.
  destruct op as [ref|pre|ref|ref d|ref|ref sim]; cbn [verdict].
  - destruct H as [Hc Hne]. rewrite <- Hc.
    apply nonempty_true in Hne. now rewrite Hne.
  - destruct H as [Hc Hne]. rewrite <- Hc.
    apply nonempty_true in Hne. now rewrite Hne.
  - now rewrite H.
  - destruct H as [Hs [Hr Hne]]. rewrite <- Hs, <- Hr.
    apply Z.eqb_neq in Hne. now rewrite Hne.
  - destruct H as [Hc Hne]. rewrite <- Hc.
    apply nonempty_true in Hne. now rewrite Hne.
  - destruct H as [Hs Hr]. now rewrite Hs, Hr.
Qed.

(** A subscription that is found and one that is not, with the same body:
    [get_subscription] returns the same mapping. *)
Lemma unread_response_fields_witness :
  result_of
    (perform Fixture.parse Fixture.unparse Fixture.urljoin
       (Fixture.ok_with "<error/>") Fixture.api (GetSubscription "SUB1"))
    [] =
  result_of
    (perform Fixture.parse Fixture.unparse Fixture.urljoin
       (Fixture.not_found_with "<error/>") Fixture.api
       (GetSubscription "SUB1")) [].
Proof.
  apply (@unread_response_fields string string Fixture.parse Fixture.unparse
           Fixture.urljoin (Fixture.ok_with "<error/>")
           (Fixture.not_found_with "<error/>") Fixture.api
           (GetSubscription "SUB1") [] []).
  intros b _. reflexivity.
Defined.
